(** * Serialization of pages and sections for the templates

    A shallow embedding of [components/library/src/content/ser.rs]: the
    structures sent to the template engine ([TranslatedContent],
    [SerializingPage], [SerializingSection]) and their constructors.

    A Rust panic ([Option::unwrap] on a missing key, indexing a slotmap with
    a key it does not hold) aborts the whole construction: every constructor
    therefore returns [option], [None] standing for the panic. Borrowed
    fields ([&'a str], [&'a Option<String>], ...) are copied by value. *)

From stdpp Require Import base gmap list strings.
From Stdlib Require Import ZArith NArith.

Set Warnings "-register-all".

(** Slotmap keys of pages and sections ([slotmap::DefaultKey]). *)
Abbreviation DefaultKey := nat.

(** [rendering::Heading], reduced to the fields the templates read; it is
    only ever copied by this module. *)
Record Heading := mkHeading {
  heading_level : nat;
  heading_id : string;
  heading_title : string
}.

(** [content::file_info::FileInfo]: paths are kept as strings. *)
Module FileInfo.
Record t := mk {
  path : string;       (* full path of the markdown file *)
  relative : string;   (* path relative to the content directory *)
  canonical : string   (* path without the language suffix *)
}.
End FileInfo.

(** The front matter of a page ([PageFrontMatter]). [extra] (a TOML table)
    and [taxonomies] (a [HashMap]) are only copied here; they are kept as
    association lists. *)
Module PageFrontMatter.
Record t := mk {
  title : option string;
  description : option string;
  updated : option string;
  date : option string;
  datetime_tuple : option (Z * N * N);
  taxonomies : list (string * list string);
  extra : list (string * string);
  draft : bool
}.
End PageFrontMatter.

Module SectionFrontMatter.
Record t := mk {
  title : option string;
  description : option string;
  extra : list (string * string);
  draft : bool
}.
End SectionFrontMatter.

(** [content::Page], the fields read by [ser.rs]. *)
Module Page.
Record t := mk {
  file : FileInfo.t;
  meta : PageFrontMatter.t;
  lang : string;
  ancestors : list DefaultKey;
  content : string;
  permalink : string;
  slug : string;
  path : string;
  components : list string;
  summary : option string;
  toc : list Heading;
  word_count : option nat;
  reading_time : option nat;
  serialized_assets : list string;
  lighter : option DefaultKey;
  heavier : option DefaultKey;
  earlier_updated : option DefaultKey;
  later_updated : option DefaultKey;
  earlier : option DefaultKey;
  later : option DefaultKey;
  title_prev : option DefaultKey;
  title_next : option DefaultKey
}.
End Page.

(** [content::Section], the fields read by [ser.rs]. *)
Module Section.
Record t := mk {
  file : FileInfo.t;
  meta : SectionFrontMatter.t;
  lang : string;
  ancestors : list DefaultKey;
  content : string;
  permalink : string;
  path : string;
  components : list string;
  toc : list Heading;
  word_count : option nat;
  reading_time : option nat;
  serialized_assets : list string;
  pages : list DefaultKey;
  subsections : list DefaultKey;
  includers : list DefaultKey
}.
End Section.

(** [library::Library]: the two slotmaps and the translation map, keyed by
    canonical path, each group a [HashSet<DefaultKey>] (a [gset]). *)
Module Library.
Record t := mk {
  pages : gmap DefaultKey Page.t;
  sections : gmap DefaultKey Section.t;
  translations : gmap string (gset DefaultKey)
}.

(** Modelled from the spec: [Library::get_page_by_key] (library.rs, not in
    this slice), "get_page(key) -> Page (fatal fault if key unknown)". *)
Definition get_page_by_key (library : t) (key : DefaultKey) : option Page.t :=
  pages library !! key.

(** Modelled from the spec: [Library::get_section_by_key] (library.rs, not in
    this slice), "get_section(key) -> Section (fatal fault if key unknown)". *)
Definition get_section_by_key (library : t) (key : DefaultKey) : option Section.t :=
  sections library !! key.

(** Modelled from the spec: [Library::get_section_path_by_key] (library.rs,
    not in this slice), "get_section_path(key) -> string (relative path, for
    lightweight section references)". *)
Definition get_section_path_by_key (library : t) (key : DefaultKey) : option string :=
  s ← get_section_by_key library key; Some (FileInfo.relative (Section.file s)).
End Library.

(** ** [TranslatedContent] *)
Module TranslatedContent.
Record t := mk {
  lang : string;
  permalink : string;
  title : option string;
  path : string
}.
End TranslatedContent.

(** [TranslatedContent::find_all_sections]: one entry per key of the
    translation group of the section's canonical path (an empty set when
    there is none), in the set's iteration order. *)
Definition find_all_sections (section : Section.t) (library : Library.t)
    : option (list TranslatedContent.t) :=
  let group :=
    match Library.translations library !! FileInfo.canonical (Section.file section) with
    | Some keys => keys
    | None => ∅
    end in
  mapM (λ key,
      other ← Library.get_section_by_key library key;
      Some (TranslatedContent.mk (Section.lang other) (Section.permalink other)
              (SectionFrontMatter.title (Section.meta other))
              (FileInfo.path (Section.file other))))
    (elements group).

(** [TranslatedContent::find_all_pages]. *)
Definition find_all_pages (page : Page.t) (library : Library.t)
    : option (list TranslatedContent.t) :=
  let group :=
    match Library.translations library !! FileInfo.canonical (Page.file page) with
    | Some keys => keys
    | None => ∅
    end in
  mapM (λ key,
      other ← Library.get_page_by_key library key;
      Some (TranslatedContent.mk (Page.lang other) (Page.permalink other)
              (PageFrontMatter.title (Page.meta other))
              (FileInfo.path (Page.file other))))
    (elements group).

(** ** [SerializingPage]: the eight sibling slots are boxed pages. *)
Module SerializingPage.
Inductive t : Type := mk {
  relative_path : string;
  content : string;
  permalink : string;
  slug : string;
  ancestors : list string;
  title : option string;
  description : option string;
  updated : option string;
  date : option string;
  year : option Z;
  month : option N;
  day : option N;
  taxonomies : list (string * list string);
  extra : list (string * string);
  path : string;
  components : list string;
  summary : option string;
  toc : list Heading;
  word_count : option nat;
  reading_time : option nat;
  assets : list string;
  draft : bool;
  lang : string;
  lighter : option t;
  heavier : option t;
  earlier_updated : option t;
  later_updated : option t;
  earlier : option t;
  later : option t;
  title_prev : option t;
  title_next : option t;
  translations : list TranslatedContent.t
}.
End SerializingPage.

(** [SerializingPage::from_page_basic]: same as [from_page] but does not fill
    sibling pages; ancestors and translations only when a library is given. *)
Definition from_page_basic (page : Page.t) (library : option Library.t)
    : option SerializingPage.t :=
  let '(year, month, day) :=
    match PageFrontMatter.datetime_tuple (Page.meta page) with
    | Some (y, m, d) => (Some y, Some m, Some d)
    | None => (None, None, None)
    end in
  ancestors ←
    match library with
    | Some lib =>
        mapM (λ k, s ← Library.get_section_by_key lib k;
                   Some (FileInfo.relative (Section.file s)))
          (Page.ancestors page)
    | None => Some []
    end;
  translations ←
    match library with
    | Some lib => find_all_pages page lib
    | None => Some []
    end;
  Some (SerializingPage.mk
    (FileInfo.relative (Page.file page))
    (Page.content page)
    (Page.permalink page)
    (Page.slug page)
    ancestors
    (PageFrontMatter.title (Page.meta page))
    (PageFrontMatter.description (Page.meta page))
    (PageFrontMatter.updated (Page.meta page))
    (PageFrontMatter.date (Page.meta page))
    year month day
    (PageFrontMatter.taxonomies (Page.meta page))
    (PageFrontMatter.extra (Page.meta page))
    (Page.path page)
    (Page.components page)
    (Page.summary page)
    (Page.toc page)
    (Page.word_count page)
    (Page.reading_time page)
    (Page.serialized_assets page)
    (PageFrontMatter.draft (Page.meta page))
    (Page.lang page)
    None None None None None None None None
    translations).

(** [SerializingPage::from_page]: grabs all the data from a page, including
    sibling pages. Each sibling slot is
    [page.lighter.map(|k| Box::new(Self::from_page_basic(pages.get(k).unwrap(), Some(library))))]:
    [None] stays [None], a key is looked up (a panic if absent) and projected
    at basic fidelity. *)
Definition from_page (page : Page.t) (library : Library.t)
    : option SerializingPage.t :=
  let '(year, month, day) :=
    match PageFrontMatter.datetime_tuple (Page.meta page) with
    | Some (y, m, d) => (Some y, Some m, Some d)
    | None => (None, None, None)
    end in
  let pages := Library.pages library in
  let sibling (key : option DefaultKey) : option (option SerializingPage.t) :=
    match key with
    | Some k => p ← pages !! k; b ← from_page_basic p (Some library); Some (Some b)
    | None => Some None
    end in
  lighter ← sibling (Page.lighter page);
  heavier ← sibling (Page.heavier page);
  earlier_updated ← sibling (Page.earlier_updated page);
  later_updated ← sibling (Page.later_updated page);
  earlier ← sibling (Page.earlier page);
  later ← sibling (Page.later page);
  title_prev ← sibling (Page.title_prev page);
  title_next ← sibling (Page.title_next page);
  ancestors ←
    mapM (λ k, s ← Library.get_section_by_key library k;
               Some (FileInfo.relative (Section.file s)))
      (Page.ancestors page);
  translations ← find_all_pages page library;
  Some (SerializingPage.mk
    (FileInfo.relative (Page.file page))
    (Page.content page)
    (Page.permalink page)
    (Page.slug page)
    ancestors
    (PageFrontMatter.title (Page.meta page))
    (PageFrontMatter.description (Page.meta page))
    (PageFrontMatter.updated (Page.meta page))
    (PageFrontMatter.date (Page.meta page))
    year month day
    (PageFrontMatter.taxonomies (Page.meta page))
    (PageFrontMatter.extra (Page.meta page))
    (Page.path page)
    (Page.components page)
    (Page.summary page)
    (Page.toc page)
    (Page.word_count page)
    (Page.reading_time page)
    (Page.serialized_assets page)
    (PageFrontMatter.draft (Page.meta page))
    (Page.lang page)
    lighter heavier earlier_updated later_updated earlier later title_prev title_next
    translations).

(** Modelled from the spec: [Page::to_serialized_basic] (page.rs, not in this
    slice); a section's child pages are "basic-fidelity Page View[s] (with the
    index passed through)". *)
Definition to_serialized_basic (page : Page.t) (library : Library.t)
    : option SerializingPage.t :=
  from_page_basic page (Some library).

(** ** [SerializingSection] *)
Module SerializingSection.
Record t := mk {
  relative_path : string;
  content : string;
  permalink : string;
  draft : bool;
  ancestors : list string;
  title : option string;
  description : option string;
  extra : list (string * string);
  path : string;
  components : list string;
  toc : list Heading;
  word_count : option nat;
  reading_time : option nat;
  lang : string;
  assets : list string;
  pages : list SerializingPage.t;
  subsections : list string;
  translations : list TranslatedContent.t;
  includers : list string
}.
End SerializingSection.

(** [SerializingSection::from_section]: the three loops push in order, then
    ancestors and translations are resolved. *)
Definition from_section (section : Section.t) (library : Library.t)
    : option SerializingSection.t :=
  pages ←
    mapM (λ k, p ← Library.get_page_by_key library k; to_serialized_basic p library)
      (Section.pages section);
  subsections ← mapM (Library.get_section_path_by_key library) (Section.subsections section);
  includers ← mapM (Library.get_section_path_by_key library) (Section.includers section);
  ancestors ←
    mapM (λ k, s ← Library.get_section_by_key library k;
               Some (FileInfo.relative (Section.file s)))
      (Section.ancestors section);
  translations ← find_all_sections section library;
  Some (SerializingSection.mk
    (FileInfo.relative (Section.file section))
    (Section.content section)
    (Section.permalink section)
    (SectionFrontMatter.draft (Section.meta section))
    ancestors
    (SectionFrontMatter.title (Section.meta section))
    (SectionFrontMatter.description (Section.meta section))
    (SectionFrontMatter.extra (Section.meta section))
    (Section.path section)
    (Section.components section)
    (Section.toc section)
    (Section.word_count section)
    (Section.reading_time section)
    (Section.lang section)
    (Section.serialized_assets section)
    pages subsections translations includers).

(** [SerializingSection::from_section_basic]: same as [from_section] but
    doesn't fetch pages. *)
Definition from_section_basic (section : Section.t) (library : option Library.t)
    : option SerializingSection.t :=
  '(ancestors, translations, subsections, includers) ←
    match library with
    | Some lib =>
        ancestors ←
          mapM (λ k, s ← Library.get_section_by_key lib k;
                     Some (FileInfo.relative (Section.file s)))
            (Section.ancestors section);
        translations ← find_all_sections section lib;
        subsections ← mapM (Library.get_section_path_by_key lib) (Section.subsections section);
        includers ← mapM (Library.get_section_path_by_key lib) (Section.includers section);
        Some (ancestors, translations, subsections, includers)
    | None => Some ([], [], [], [])
    end;
  Some (SerializingSection.mk
    (FileInfo.relative (Section.file section))
    (Section.content section)
    (Section.permalink section)
    (SectionFrontMatter.draft (Section.meta section))
    ancestors
    (SectionFrontMatter.title (Section.meta section))
    (SectionFrontMatter.description (Section.meta section))
    (SectionFrontMatter.extra (Section.meta section))
    (Section.path section)
    (Section.components section)
    (Section.toc section)
    (Section.word_count section)
    (Section.reading_time section)
    (Section.lang section)
    (Section.serialized_assets section)
    [] subsections translations includers).

(** ** Vocabulary for the properties *)

(** The eight sibling slots, on the page (a key) and on its view. *)
Inductive NavSlot :=
  | Lighter | Heavier | EarlierUpdated | LaterUpdated
  | Earlier | Later | TitlePrev | TitleNext.

Definition all_nav_slots : list NavSlot :=
  [Lighter; Heavier; EarlierUpdated; LaterUpdated; Earlier; Later; TitlePrev; TitleNext].

Definition page_nav (slot : NavSlot) (page : Page.t) : option DefaultKey :=
  match slot with
  | Lighter => Page.lighter page
  | Heavier => Page.heavier page
  | EarlierUpdated => Page.earlier_updated page
  | LaterUpdated => Page.later_updated page
  | Earlier => Page.earlier page
  | Later => Page.later page
  | TitlePrev => Page.title_prev page
  | TitleNext => Page.title_next page
  end.

Definition view_nav (slot : NavSlot) (v : SerializingPage.t) : option SerializingPage.t :=
  match slot with
  | Lighter => SerializingPage.lighter v
  | Heavier => SerializingPage.heavier v
  | EarlierUpdated => SerializingPage.earlier_updated v
  | LaterUpdated => SerializingPage.later_updated v
  | Earlier => SerializingPage.earlier v
  | Later => SerializingPage.later v
  | TitlePrev => SerializingPage.title_prev v
  | TitleNext => SerializingPage.title_next v
  end.

(** A view whose eight sibling slots are all [None]. *)
Definition no_siblings (v : SerializingPage.t) : Prop :=
  ∀ slot, view_nav slot v = None.

(** A page none of whose sibling keys is set. *)
Definition no_nav_pointers (page : Page.t) : Prop :=
  ∀ slot, page_nav slot page = None.

(** The view with its eight sibling slots set to [None], every other field
    kept. *)
Definition erase_siblings (v : SerializingPage.t) : SerializingPage.t :=
  SerializingPage.mk
    (SerializingPage.relative_path v) (SerializingPage.content v)
    (SerializingPage.permalink v) (SerializingPage.slug v)
    (SerializingPage.ancestors v) (SerializingPage.title v)
    (SerializingPage.description v) (SerializingPage.updated v)
    (SerializingPage.date v) (SerializingPage.year v)
    (SerializingPage.month v) (SerializingPage.day v)
    (SerializingPage.taxonomies v) (SerializingPage.extra v)
    (SerializingPage.path v) (SerializingPage.components v)
    (SerializingPage.summary v) (SerializingPage.toc v)
    (SerializingPage.word_count v) (SerializingPage.reading_time v)
    (SerializingPage.assets v) (SerializingPage.draft v)
    (SerializingPage.lang v)
    None None None None None None None None
    (SerializingPage.translations v).

(** The reference built for a page or a section of a translation group. *)
Definition page_reference (other : Page.t) : TranslatedContent.t :=
  TranslatedContent.mk (Page.lang other) (Page.permalink other)
    (PageFrontMatter.title (Page.meta other)) (FileInfo.path (Page.file other)).

Definition section_reference (other : Section.t) : TranslatedContent.t :=
  TranslatedContent.mk (Section.lang other) (Section.permalink other)
    (SectionFrontMatter.title (Section.meta other)) (FileInfo.path (Section.file other)).

(** The translation group stored for a canonical path ([None]: no group). *)
Definition translation_group (library : Library.t) (canonical : string)
    : option (gset DefaultKey) :=
  Library.translations library !! canonical.

(** Key presence checks, as booleans. *)
Definition page_present (library : Library.t) (k : DefaultKey) : bool :=
  bool_decide (is_Some (Library.pages library !! k)).
Definition section_present (library : Library.t) (k : DefaultKey) : bool :=
  bool_decide (is_Some (Library.sections library !! k)).

Definition group_keys (library : Library.t) (canonical : string) : list DefaultKey :=
  match translation_group library canonical with
  | Some g => elements g
  | None => []
  end.

(** Every key stored in the page itself is present: its ancestors, the
    members of its translation group and its eight sibling keys. *)
Definition page_own_keys_present (library : Library.t) (page : Page.t) : bool :=
  forallb (section_present library) (Page.ancestors page) &&
  forallb (page_present library) (group_keys library (FileInfo.canonical (Page.file page))) &&
  forallb (λ slot, match page_nav slot page with
                   | Some k => page_present library k
                   | None => true
                   end) all_nav_slots.

(** The keys read by [from_page_basic page (Some library)]. *)
Definition basic_keys_present (library : Library.t) (page : Page.t) : bool :=
  forallb (section_present library) (Page.ancestors page) &&
  forallb (page_present library) (group_keys library (FileInfo.canonical (Page.file page))).

(** A key of a sibling or a child page: present, and the keys read by the
    basic projection of that page present too. *)
Definition nested_page_ok (library : Library.t) (k : DefaultKey) : bool :=
  match Library.pages library !! k with
  | Some q => basic_keys_present library q
  | None => false
  end.

(** The keys read by [from_page page library], nested ones included. *)
Definition page_refs_ok (library : Library.t) (page : Page.t) : bool :=
  basic_keys_present library page &&
  forallb (λ slot, match page_nav slot page with
                   | Some k => nested_page_ok library k
                   | None => true
                   end) all_nav_slots.

(** Every key stored in the section itself is present. *)
Definition section_own_keys_present (library : Library.t) (section : Section.t) : bool :=
  forallb (page_present library) (Section.pages section) &&
  forallb (section_present library) (Section.subsections section) &&
  forallb (section_present library) (Section.includers section) &&
  forallb (section_present library) (Section.ancestors section) &&
  forallb (section_present library)
    (group_keys library (FileInfo.canonical (Section.file section))).

(** The keys read by [from_section section library], nested ones included. *)
Definition section_refs_ok (library : Library.t) (section : Section.t) : bool :=
  forallb (nested_page_ok library) (Section.pages section) &&
  forallb (section_present library) (Section.subsections section) &&
  forallb (section_present library) (Section.includers section) &&
  forallb (section_present library) (Section.ancestors section) &&
  forallb (section_present library)
    (group_keys library (FileInfo.canonical (Section.file section))).

(** ** Further vocabulary *)

(** [SerializingPage::get_title] (currently only used in testing). *)
Definition get_title (v : SerializingPage.t) : option string :=
  SerializingPage.title v.

(** The view with its ancestors and translations emptied, every other field
    kept: what [from_page_basic] builds without a library. *)
Definition drop_references (v : SerializingPage.t) : SerializingPage.t :=
  SerializingPage.mk
    (SerializingPage.relative_path v) (SerializingPage.content v)
    (SerializingPage.permalink v) (SerializingPage.slug v)
    [] (SerializingPage.title v)
    (SerializingPage.description v) (SerializingPage.updated v)
    (SerializingPage.date v) (SerializingPage.year v)
    (SerializingPage.month v) (SerializingPage.day v)
    (SerializingPage.taxonomies v) (SerializingPage.extra v)
    (SerializingPage.path v) (SerializingPage.components v)
    (SerializingPage.summary v) (SerializingPage.toc v)
    (SerializingPage.word_count v) (SerializingPage.reading_time v)
    (SerializingPage.assets v) (SerializingPage.draft v)
    (SerializingPage.lang v)
    (SerializingPage.lighter v) (SerializingPage.heavier v)
    (SerializingPage.earlier_updated v) (SerializingPage.later_updated v)
    (SerializingPage.earlier v) (SerializingPage.later v)
    (SerializingPage.title_prev v) (SerializingPage.title_next v)
    [].

(** The section view with its pages emptied, every other field kept. *)
Definition clear_pages (v : SerializingSection.t) : SerializingSection.t :=
  SerializingSection.mk
    (SerializingSection.relative_path v) (SerializingSection.content v)
    (SerializingSection.permalink v) (SerializingSection.draft v)
    (SerializingSection.ancestors v) (SerializingSection.title v)
    (SerializingSection.description v) (SerializingSection.extra v)
    (SerializingSection.path v) (SerializingSection.components v)
    (SerializingSection.toc v) (SerializingSection.word_count v)
    (SerializingSection.reading_time v) (SerializingSection.lang v)
    (SerializingSection.assets v)
    [] (SerializingSection.subsections v) (SerializingSection.translations v)
    (SerializingSection.includers v).

(** The keys read by [from_section_basic section (Some library)]. *)
Definition section_basic_refs_ok (library : Library.t) (section : Section.t) : bool :=
  forallb (section_present library) (Section.ancestors section) &&
  forallb (section_present library)
    (group_keys library (FileInfo.canonical (Section.file section))) &&
  forallb (section_present library) (Section.subsections section) &&
  forallb (section_present library) (Section.includers section).

(** The fields a page view copies from the page. *)
Definition page_fields_copied (page : Page.t) (v : SerializingPage.t) : Prop :=
  SerializingPage.relative_path v = FileInfo.relative (Page.file page) ∧
  SerializingPage.content v = Page.content page ∧
  SerializingPage.permalink v = Page.permalink page ∧
  SerializingPage.slug v = Page.slug page ∧
  get_title v = PageFrontMatter.title (Page.meta page) ∧
  SerializingPage.description v = PageFrontMatter.description (Page.meta page) ∧
  SerializingPage.updated v = PageFrontMatter.updated (Page.meta page) ∧
  SerializingPage.date v = PageFrontMatter.date (Page.meta page) ∧
  SerializingPage.taxonomies v = PageFrontMatter.taxonomies (Page.meta page) ∧
  SerializingPage.extra v = PageFrontMatter.extra (Page.meta page) ∧
  SerializingPage.path v = Page.path page ∧
  SerializingPage.components v = Page.components page ∧
  SerializingPage.summary v = Page.summary page ∧
  SerializingPage.toc v = Page.toc page ∧
  SerializingPage.word_count v = Page.word_count page ∧
  SerializingPage.reading_time v = Page.reading_time page ∧
  SerializingPage.assets v = Page.serialized_assets page ∧
  SerializingPage.draft v = PageFrontMatter.draft (Page.meta page) ∧
  SerializingPage.lang v = Page.lang page.

(** The fields a section view copies from the section. *)
Definition section_fields_copied (section : Section.t) (v : SerializingSection.t) : Prop :=
  SerializingSection.relative_path v = FileInfo.relative (Section.file section) ∧
  SerializingSection.content v = Section.content section ∧
  SerializingSection.permalink v = Section.permalink section ∧
  SerializingSection.draft v = SectionFrontMatter.draft (Section.meta section) ∧
  SerializingSection.title v = SectionFrontMatter.title (Section.meta section) ∧
  SerializingSection.description v = SectionFrontMatter.description (Section.meta section) ∧
  SerializingSection.extra v = SectionFrontMatter.extra (Section.meta section) ∧
  SerializingSection.path v = Section.path section ∧
  SerializingSection.components v = Section.components section ∧
  SerializingSection.toc v = Section.toc section ∧
  SerializingSection.word_count v = Section.word_count section ∧
  SerializingSection.reading_time v = Section.reading_time section ∧
  SerializingSection.lang v = Section.lang section ∧
  SerializingSection.assets v = Section.serialized_assets section.

(** An ancestor key resolved to the relative path of its section. *)
Definition ancestor_resolved (library : Library.t) (k : DefaultKey) (a : string) : Prop :=
  ∃ sec, Library.sections library !! k = Some sec ∧ a = FileInfo.relative (Section.file sec).

(** The year, month and day a page stores, and those of a view. *)
Definition date_parts (page : Page.t) : option Z * option N * option N :=
  match PageFrontMatter.datetime_tuple (Page.meta page) with
  | Some (y, m, d) => (Some y, Some m, Some d)
  | None => (None, None, None)
  end.
Definition view_date (v : SerializingPage.t) : option Z * option N * option N :=
  (SerializingPage.year v, SerializingPage.month v, SerializingPage.day v).

(** ** A small site used by the examples *)
Module Sample.

Definition page (path relative canonical lang : string)
    (datetime : option (Z * N * N)) (ancestors : list DefaultKey)
    (lighter : option DefaultKey) : Page.t :=
  Page.mk (FileInfo.mk path relative canonical)
    (PageFrontMatter.mk (Some ("Post " +:+ lang)) None None None datetime [] [] false)
    lang ancestors "body" ("https://example.com/" +:+ relative) "post" relative
    [] None [] (Some 100) (Some 1) []
    lighter None None None None None None None.

Definition section (path relative canonical : string) (pages subsections includers
    ancestors : list DefaultKey) : Section.t :=
  Section.mk (FileInfo.mk path relative canonical)
    (SectionFrontMatter.mk None None [] false)
    "en" ancestors "" ("https://example.com/" +:+ relative) relative
    [] [] None None [] pages subsections includers.

(** [en/post.md] (key 0), its French translation (key 1), a page whose
    sibling (key 3) has an ancestor key (99) that is not in the library,
    and two sections including one another. *)
Definition post_en : Page.t :=
  page "content/blog/2024/post.md" "blog/2024/post.md" "content/blog/2024/post"
    "en" (Some (2024%Z, 3%N, 15%N)) [10; 11] None.
Definition post_fr : Page.t :=
  page "content/blog/2024/post.fr.md" "blog/2024/post.fr.md" "content/blog/2024/post"
    "fr" None [10; 11] (Some 0).
Definition dangling_sibling : Page.t :=
  page "content/broken.md" "broken.md" "content/broken" "en" None [99] None.
Definition points_to_dangling : Page.t :=
  page "content/other.md" "other.md" "content/other" "en" None [] (Some 3).

Definition blog : Section.t :=
  section "content/blog/_index.md" "blog" "content/blog/_index" [] [11] [11] [].
Definition blog_2024 : Section.t :=
  section "content/blog/2024/_index.md" "blog/2024" "content/blog/2024/_index"
    [0; 1] [] [10] [10].

Definition library : Library.t :=
  Library.mk
    (<[0 := post_en]> (<[1 := post_fr]> (<[2 := points_to_dangling]>
      (<[3 := dangling_sibling]> ∅))))
    (<[10 := blog]> (<[11 := blog_2024]> ∅))
    (<["content/blog/2024/post" := {[0; 1]}]> ∅).

End Sample.

(** * Properties *)

Ltac bind_some H :=
  repeat match type of H with
  | mbind _ (Some _) = _ => simpl in H
  | mbind _ ?m = Some _ =>
      let E := fresh "E" in
      destruct m eqn:E; simpl in H; [|discriminate H]
  end.

Lemma sibling_Some lib (key : option DefaultKey) o :
  match key with
  | Some k => Library.pages lib !! k ≫= λ p, from_page_basic p (Some lib) ≫= λ b, Some (Some b)
  | None => Some None
  end = Some o →
  match key with
  | None => o = None
  | Some k => ∃ q b, Library.pages lib !! k = Some q ∧
              from_page_basic q (Some lib) = Some b ∧ o = Some b
  end.
Proof.
  destruct key as [k|]; intros H; [|congruence].
  bind_some H. injection H as <-. eauto.
Qed.

Lemma from_page_shape p lib v :
  from_page p lib = Some v →
  from_page_basic p (Some lib) = Some (erase_siblings v) ∧
  ∀ slot, match page_nav slot p with
          | None => view_nav slot v = None
          | Some k => ∃ q b, Library.pages lib !! k = Some q ∧
                      from_page_basic q (Some lib) = Some b ∧ view_nav slot v = Some b
          end.
Proof.
  intros H. unfold from_page in H.
  destruct (PageFrontMatter.datetime_tuple (Page.meta p)) as [[[y m] d]|] eqn:Edt;
  simpl in H; bind_some H; injection H as <-;
  apply sibling_Some in E, E0, E1, E2, E3, E4, E5, E6;
  (split; [unfold from_page_basic; rewrite Edt; simpl; rewrite E7; simpl; rewrite E8; reflexivity
          | intros []; simpl; assumption]).
Qed.

Lemma find_all_pages_group (p : Page.t) (lib : Library.t) (g : gset DefaultKey) ts :
  translation_group lib (FileInfo.canonical (Page.file p)) = Some g →
  find_all_pages p lib = Some ts →
  NoDup (elements g) ∧
  Forall2 (λ k t, ∃ q, Library.pages lib !! k = Some q ∧ t = page_reference q) (elements g) ts ∧
  length ts = size g ∧
  (∀ k, k ∈ g → Library.pages lib !! k = Some p → page_reference p ∈ ts).
Proof.
  unfold translation_group, find_all_pages. intros Hg Hts. rewrite Hg in Hts.
  apply mapM_Some in Hts.
  assert (HF : Forall2 (λ k t, ∃ q, Library.pages lib !! k = Some q ∧ t = page_reference q)
                 (elements g) ts).
  { eapply Forall2_impl; [exact Hts|]. intros k t Ht.
    unfold Library.get_page_by_key in Ht.
    destruct (Library.pages lib !! k) as [q|]; simpl in Ht; [|discriminate].
    injection Ht as <-. eauto. }
  split; [apply NoDup_elements|]. split; [exact HF|]. split.
  - symmetry. apply (Forall2_length _ _ _ HF).
  - intros k Hk Hp. apply elem_of_elements in Hk.
    apply list_elem_of_lookup in Hk as [i Hi].
    destruct (Forall2_lookup_l _ _ _ _ _ HF Hi) as (t & Ht & q & Hq & ->).
    rewrite Hp in Hq. injection Hq as <-.
    apply list_elem_of_lookup. eauto.
Qed.

Lemma forallb_Forall {A} (b : A → bool) (l : list A) :
  forallb b l = true ↔ Forall (λ x, b x = true) l.
Proof.
  induction l as [|x l IH]; simpl; [split; auto|].
  rewrite andb_true_iff, Forall_cons, IH. done.
Qed.

Lemma mapM_is_Some_iff {A B} (f : A → option B) (b : A → bool) (l : list A) :
  (∀ x, b x = true ↔ is_Some (f x)) →
  forallb b l = true ↔ is_Some (mapM f l).
Proof.
  intros Hb. rewrite forallb_Forall, mapM_is_Some.
  split; intros H; eapply Forall_impl; try exact H; intros x; apply Hb.
Qed.

Lemma ancestors_resolved lib (l : list DefaultKey) :
  forallb (section_present lib) l = true ↔
  is_Some (mapM (λ k, s ← Library.get_section_by_key lib k;
                      Some (FileInfo.relative (Section.file s))) l).
Proof.
  apply mapM_is_Some_iff. intros k. unfold section_present, Library.get_section_by_key.
  rewrite bool_decide_eq_true.
  destruct (Library.sections lib !! k); simpl; done.
Qed.

Lemma section_paths_resolved lib (l : list DefaultKey) :
  forallb (section_present lib) l = true ↔
  is_Some (mapM (Library.get_section_path_by_key lib) l).
Proof.
  apply mapM_is_Some_iff. intros k.
  unfold section_present, Library.get_section_path_by_key, Library.get_section_by_key.
  rewrite bool_decide_eq_true.
  destruct (Library.sections lib !! k); simpl; done.
Qed.

Lemma find_all_pages_resolved lib p :
  forallb (page_present lib) (group_keys lib (FileInfo.canonical (Page.file p))) = true ↔
  is_Some (find_all_pages p lib).
Proof.
  unfold find_all_pages, group_keys, translation_group.
  destruct (Library.translations lib !! _) as [g|].
  2: { rewrite elements_empty. simpl. done. }
  apply mapM_is_Some_iff. intros k.
  unfold page_present, Library.get_page_by_key. rewrite bool_decide_eq_true.
  destruct (Library.pages lib !! k); simpl; done.
Qed.

Lemma find_all_sections_resolved lib s :
  forallb (section_present lib) (group_keys lib (FileInfo.canonical (Section.file s))) = true ↔
  is_Some (find_all_sections s lib).
Proof.
  unfold find_all_sections, group_keys, translation_group.
  destruct (Library.translations lib !! _) as [g|].
  2: { rewrite elements_empty. simpl. done. }
  apply mapM_is_Some_iff. intros k.
  unfold section_present, Library.get_section_by_key. rewrite bool_decide_eq_true.
  destruct (Library.sections lib !! k); simpl; done.
Qed.

Ltac bind_cases :=
  repeat match goal with
  | |- context [mbind _ ?m] =>
      lazymatch m with
      | Some _ => fail
      | None => fail
      | _ => let E := fresh "E" in destruct m eqn:E
      end
  end; simpl.

Lemma from_page_basic_resolved lib p :
  basic_keys_present lib p = true ↔ is_Some (from_page_basic p (Some lib)).
Proof.
  unfold basic_keys_present. rewrite andb_true_iff, ancestors_resolved, find_all_pages_resolved.
  unfold from_page_basic.
  destruct (PageFrontMatter.datetime_tuple (Page.meta p)) as [[[y m] d]|]; simpl;
  bind_cases; unfold is_Some; naive_solver.
Qed.

Lemma sibling_resolved lib (key : option DefaultKey) :
  match key with Some k => nested_page_ok lib k | None => true end = true ↔
  is_Some (match key with
           | Some k => Library.pages lib !! k ≫= λ p, from_page_basic p (Some lib) ≫= λ b, Some (Some b)
           | None => Some None
           end).
Proof.
  destruct key as [k|]; [|done]. unfold nested_page_ok.
  destruct (Library.pages lib !! k) as [q|]; simpl; [|done].
  rewrite from_page_basic_resolved.
  destruct (from_page_basic q (Some lib)); simpl; unfold is_Some; naive_solver.
Qed.

Lemma from_page_resolved lib p :
  page_refs_ok lib p = true ↔ is_Some (from_page p lib).
Proof.
  unfold page_refs_ok, basic_keys_present. simpl forallb.
  rewrite !andb_true_iff, ancestors_resolved, find_all_pages_resolved.
  rewrite !(sibling_resolved lib).
  unfold from_page.
  destruct (PageFrontMatter.datetime_tuple (Page.meta p)) as [[[y m] d]|]; simpl;
  bind_cases; unfold is_Some; naive_solver.
Qed.

Lemma child_pages_resolved lib (l : list DefaultKey) :
  forallb (nested_page_ok lib) l = true ↔
  is_Some (mapM (λ k, p ← Library.get_page_by_key lib k; to_serialized_basic p lib) l).
Proof.
  apply mapM_is_Some_iff. intros k. unfold nested_page_ok, Library.get_page_by_key.
  destruct (Library.pages lib !! k) as [q|]; simpl; [|done].
  apply from_page_basic_resolved.
Qed.

Lemma from_section_resolved lib s :
  section_refs_ok lib s = true ↔ is_Some (from_section s lib).
Proof.
  unfold section_refs_ok.
  rewrite !andb_true_iff, child_pages_resolved,
    (section_paths_resolved lib (Section.subsections s)),
    (section_paths_resolved lib (Section.includers s)),
    ancestors_resolved, find_all_sections_resolved.
  unfold from_section. bind_cases; unfold is_Some; naive_solver.
Qed.

Lemma from_page_basic_shape p lo v :
  from_page_basic p lo = Some v → no_siblings v ∧ view_date v = date_parts p.
Proof.
  unfold from_page_basic, date_parts. intros H.
  destruct (PageFrontMatter.datetime_tuple (Page.meta p)) as [[[y m] d]|];
  simpl in H; bind_some H; injection H as <-; (split; [intros []; reflexivity|reflexivity]).
Qed.

Lemma find_all_sections_group (s : Section.t) (lib : Library.t) (g : gset DefaultKey) ts :
  translation_group lib (FileInfo.canonical (Section.file s)) = Some g →
  find_all_sections s lib = Some ts →
  NoDup (elements g) ∧
  Forall2 (λ k t, ∃ q, Library.sections lib !! k = Some q ∧ t = section_reference q) (elements g) ts ∧
  length ts = size g ∧
  (∀ k, k ∈ g → Library.sections lib !! k = Some s → section_reference s ∈ ts).
Proof.
  unfold translation_group, find_all_sections. intros Hg Hts. rewrite Hg in Hts.
  apply mapM_Some in Hts.
  assert (HF : Forall2 (λ k t, ∃ q, Library.sections lib !! k = Some q ∧ t = section_reference q)
                 (elements g) ts).
  { eapply Forall2_impl; [exact Hts|]. intros k t Ht.
    unfold Library.get_section_by_key in Ht.
    destruct (Library.sections lib !! k) as [q|]; simpl in Ht; [|discriminate].
    injection Ht as <-. eauto. }
  split; [apply NoDup_elements|]. split; [exact HF|]. split.
  - symmetry. apply (Forall2_length _ _ _ HF).
  - intros k Hk Hp. apply elem_of_elements in Hk.
    apply list_elem_of_lookup in Hk as [i Hi].
    destruct (Forall2_lookup_l _ _ _ _ _ HF Hi) as (t & Ht & q & Hq & ->).
    rewrite Hp in Hq. injection Hq as <-.
    apply list_elem_of_lookup. eauto.
Qed.

(** ** Translation resolver (C1)

    C1 (counterexample): [en/post.md] and [fr/post.md] share one translation
    group of two keys; [find_all_pages] on the English page returns two
    references, not one, and the second is the page's own (same file path). *)
Lemma translations_include_self :
  translation_group Sample.library (FileInfo.canonical (Page.file Sample.post_en)) = Some {[0; 1]} ∧
  size ({[0; 1]} : gset DefaultKey) = 2 ∧
  find_all_pages Sample.post_en Sample.library =
    Some [page_reference Sample.post_fr; page_reference Sample.post_en] ∧
  TranslatedContent.path (page_reference Sample.post_en) = FileInfo.path (Page.file Sample.post_en).
Proof. vm_compute. repeat split. Qed.

(** C1 (amended): the resolver returns one reference per key of the
    translation group stored for the entity's canonical path, in the group's
    iteration order; the keys are distinct, so a group of N keys gives N
    references, and the entity's own reference is among them whenever its
    key belongs to the group. Pages and sections alike. *)
Theorem translations_are_whole_group :
  (∀ (p : Page.t) (lib : Library.t) (g : gset DefaultKey) ts,
     translation_group lib (FileInfo.canonical (Page.file p)) = Some g →
     find_all_pages p lib = Some ts →
     NoDup (elements g) ∧
     Forall2 (λ k t, ∃ q, Library.pages lib !! k = Some q ∧ t = page_reference q) (elements g) ts ∧
     length ts = size g ∧
     (∀ k, k ∈ g → Library.pages lib !! k = Some p → page_reference p ∈ ts)) ∧
  (∀ (s : Section.t) (lib : Library.t) (g : gset DefaultKey) ts,
     translation_group lib (FileInfo.canonical (Section.file s)) = Some g →
     find_all_sections s lib = Some ts →
     NoDup (elements g) ∧
     Forall2 (λ k t, ∃ q, Library.sections lib !! k = Some q ∧ t = section_reference q) (elements g) ts ∧
     length ts = size g ∧
     (∀ k, k ∈ g → Library.sections lib !! k = Some s → section_reference s ∈ ts)).
Proof. split; [apply find_all_pages_group | apply find_all_sections_group]. Qed.

Lemma translations_are_whole_group_witness :
  ∃ ts, find_all_pages Sample.post_en Sample.library = Some ts ∧
        length ts = size ({[0; 1]} : gset DefaultKey) ∧ page_reference Sample.post_en ∈ ts.
Proof.
  eexists. split; [reflexivity|].
  destruct (proj1 translations_are_whole_group Sample.post_en Sample.library {[0; 1]}
              [page_reference Sample.post_fr; page_reference Sample.post_en])
    as (_ & _ & Hlen & Hself); [reflexivity | reflexivity |].
  split; [exact Hlen|]. apply (Hself 0); [set_solver | reflexivity].
Defined.

(** ** Page projection *)

(** C2: when [from_page] yields a view and the page's sibling slot holds key
    [k], that slot of the view holds [from_page_basic] of the page stored at
    [k] (with the library), and that nested view has no siblings of its own. *)
Theorem from_page_sibling_is_basic p lib v slot k :
  from_page p lib = Some v → page_nav slot p = Some k →
  ∃ q b, Library.pages lib !! k = Some q ∧ from_page_basic q (Some lib) = Some b ∧
         view_nav slot v = Some b ∧ no_siblings b.
Proof.
  intros H Hk. destruct (from_page_shape p lib v H) as [_ Hslot].
  specialize (Hslot slot). rewrite Hk in Hslot.
  destruct Hslot as (q & b & Hq & Hb & Hv).
  exists q, b. split_and!; try done. apply (from_page_basic_shape q (Some lib) b Hb).
Qed.

Lemma from_page_sibling_is_basic_witness :
  ∃ v q b, from_page Sample.post_fr Sample.library = Some v ∧
    Library.pages Sample.library !! 0 = Some q ∧ from_page_basic q (Some Sample.library) = Some b ∧
    view_nav Lighter v = Some b ∧ no_siblings b.
Proof.
  destruct (from_page Sample.post_fr Sample.library) as [v|] eqn:Hv;
    [|vm_compute in Hv; discriminate Hv].
  destruct (from_page_sibling_is_basic Sample.post_fr Sample.library v Lighter 0 Hv)
    as (q & b & Hq & Hb & Hl & Hn); [reflexivity|].
  exists v, q, b. auto.
Defined.

(** C3: for a page with no sibling key set, [from_page] and
    [from_page_basic] with the library give the same result, and the view
    has all eight sibling slots empty. *)
Theorem from_page_without_siblings p lib :
  no_nav_pointers p →
  from_page p lib = from_page_basic p (Some lib) ∧
  (∀ v, from_page p lib = Some v → no_siblings v).
Proof.
  intros Hnone.
  assert (Heq : from_page p lib = from_page_basic p (Some lib)).
  { pose proof (Hnone Lighter) as H1; pose proof (Hnone Heavier) as H2;
    pose proof (Hnone EarlierUpdated) as H3; pose proof (Hnone LaterUpdated) as H4;
    pose proof (Hnone Earlier) as H5; pose proof (Hnone Later) as H6;
    pose proof (Hnone TitlePrev) as H7; pose proof (Hnone TitleNext) as H8;
    simpl in H1, H2, H3, H4, H5, H6, H7, H8.
    unfold from_page, from_page_basic.
    rewrite H1, H2, H3, H4, H5, H6, H7, H8.
    destruct (PageFrontMatter.datetime_tuple (Page.meta p)) as [[[y m] d]|]; simpl;
    bind_cases; reflexivity. }
  split; [exact Heq|]. intros v Hv. rewrite Heq in Hv.
  apply (from_page_basic_shape p (Some lib) v Hv).
Qed.

Lemma from_page_without_siblings_witness :
  no_nav_pointers Sample.post_en ∧
  from_page Sample.post_en Sample.library = from_page_basic Sample.post_en (Some Sample.library).
Proof.
  assert (H : no_nav_pointers Sample.post_en) by (intros []; reflexivity).
  split; [exact H|]. apply (from_page_without_siblings Sample.post_en Sample.library H).
Defined.

(** C4: whatever the optional library and the page's sibling keys,
    a view built by [from_page_basic] has all eight sibling slots empty. *)
Theorem from_page_basic_no_siblings p (library : option Library.t) v :
  from_page_basic p library = Some v → no_siblings v.
Proof. intros H. apply (from_page_basic_shape p library v H). Qed.

Lemma from_page_basic_no_siblings_witness :
  ∃ v, Page.lighter Sample.post_fr = Some 0 ∧
       from_page_basic Sample.post_fr None = Some v ∧ no_siblings v.
Proof.
  destruct (from_page_basic Sample.post_fr None) as [v|] eqn:Hv;
    [|vm_compute in Hv; discriminate Hv].
  exists v. split; [reflexivity|]. split; [reflexivity|].
  apply (from_page_basic_no_siblings Sample.post_fr None v Hv).
Defined.

(** ** Section projection

    C5: [from_section] is a total function of the section and the library,
    so it terminates also on a library whose sections include one another;
    subsections and includers are strings, each the relative path of the
    section at the corresponding key. *)
Theorem from_section_paths_only s lib v :
  from_section s lib = Some v →
  Forall2 (λ k path, Library.get_section_path_by_key lib k = Some path)
    (Section.subsections s) (SerializingSection.subsections v) ∧
  Forall2 (λ k path, Library.get_section_path_by_key lib k = Some path)
    (Section.includers s) (SerializingSection.includers v).
Proof.
  unfold from_section. intros H. bind_some H. injection H as <-. simpl.
  split; apply mapM_Some; assumption.
Qed.

Lemma from_section_paths_only_witness :
  Section.includers Sample.blog = [11] ∧ Section.includers Sample.blog_2024 = [10] ∧
  ∃ v, from_section Sample.blog Sample.library = Some v ∧
       SerializingSection.includers v = ["blog/2024"] ∧
       Forall2 (λ k path, Library.get_section_path_by_key Sample.library k = Some path)
         (Section.includers Sample.blog) (SerializingSection.includers v).
Proof.
  split; [reflexivity|]. split; [reflexivity|].
  destruct (from_section Sample.blog Sample.library) as [v|] eqn:Hv;
    [|vm_compute in Hv; discriminate Hv].
  exists v. split; [reflexivity|]. split.
  - vm_compute in Hv. injection Hv as <-. reflexivity.
  - apply (from_section_paths_only Sample.blog Sample.library v Hv).
Defined.

(** ** Missing translation groups and broken references

    C6: when no translation group is stored for the canonical path, the
    resolver succeeds with the empty list, for pages and for sections. *)
Theorem missing_group_no_translations (p : Page.t) (s : Section.t) (lib : Library.t) :
  (translation_group lib (FileInfo.canonical (Page.file p)) = None →
   find_all_pages p lib = Some []) ∧
  (translation_group lib (FileInfo.canonical (Section.file s)) = None →
   find_all_sections s lib = Some []).
Proof.
  unfold translation_group, find_all_pages, find_all_sections.
  split; intros ->; rewrite elements_empty; reflexivity.
Qed.

Lemma missing_group_no_translations_witness :
  find_all_pages Sample.points_to_dangling Sample.library = Some [] ∧
  find_all_sections Sample.blog Sample.library = Some [].
Proof.
  destruct (missing_group_no_translations Sample.points_to_dangling Sample.blog Sample.library)
    as [Hp Hs].
  split; [apply Hp | apply Hs]; reflexivity.
Defined.

(** C7 (counterexample): every key stored in [points_to_dangling] is
    present (it has no ancestor, no translation group, and its sibling key 3
    is a page of the library), yet [from_page] faults: the sibling page's
    ancestor key 99 is missing. *)
Lemma own_keys_present_yet_fault :
  page_own_keys_present Sample.library Sample.points_to_dangling = true ∧
  from_page Sample.points_to_dangling Sample.library = None.
Proof. split; vm_compute; reflexivity. Qed.

(** C7 (amended): [from_page] yields a view exactly when the keys it reads
    are present: the page's ancestors, its translation group's members, its
    sibling keys, and, for each sibling page, that page's ancestors and
    translation group's members; [from_section] yields a view exactly when
    its child pages (with their ancestors and translation group's members),
    subsections, includers, ancestors and translation group's members are
    present. Otherwise the result is [None]: the projection panics and no
    view is produced. *)
Theorem projection_succeeds_iff_refs_resolve :
  (∀ (p : Page.t) (lib : Library.t), is_Some (from_page p lib) ↔ page_refs_ok lib p = true) ∧
  (∀ (s : Section.t) (lib : Library.t), is_Some (from_section s lib) ↔ section_refs_ok lib s = true).
Proof.
  split; intros; symmetry; [apply from_page_resolved | apply from_section_resolved].
Qed.

(** ** Dates

    C8: [from_page] and [from_page_basic] split a stored [(y, m, d)] into
    [year = Some y], [month = Some m], [day = Some d], and leave the three
    absent when no date-time tuple is stored. *)
Theorem date_decomposition p :
  (∀ lib v, from_page p lib = Some v → view_date v = date_parts p) ∧
  (∀ (library : option Library.t) v, from_page_basic p library = Some v → view_date v = date_parts p).
Proof.
  split.
  - intros lib v H. destruct (from_page_shape p lib v H) as [Hb _].
    apply from_page_basic_shape in Hb as [_ Hd]. exact Hd.
  - intros library v H. apply (from_page_basic_shape p library v H).
Qed.

Lemma date_decomposition_witness :
  ∃ v, from_page Sample.post_en Sample.library = Some v ∧
       view_date v = (Some 2024%Z, Some 3%N, Some 15%N).
Proof.
  destruct (from_page Sample.post_en Sample.library) as [v|] eqn:Hv;
    [|vm_compute in Hv; discriminate Hv].
  exists v. split; [reflexivity|].
  apply (proj1 (date_decomposition Sample.post_en) Sample.library v Hv).
Defined.

(** ** Basic and full projection (C9)

    C9: when [from_page] yields a view, [from_page_basic] with the library
    yields the same view with its eight sibling slots set to [None]. *)
Theorem from_page_basic_is_erased_from_page p lib v :
  from_page p lib = Some v → from_page_basic p (Some lib) = Some (erase_siblings v).
Proof. intros H. apply (from_page_shape p lib v H). Qed.

Lemma from_page_basic_is_erased_from_page_witness :
  ∃ v, from_page Sample.post_fr Sample.library = Some v ∧
       SerializingPage.lighter v ≠ None ∧
       from_page_basic Sample.post_fr (Some Sample.library) = Some (erase_siblings v).
Proof.
  destruct (from_page Sample.post_fr Sample.library) as [v|] eqn:Hv;
    [|vm_compute in Hv; discriminate Hv].
  exists v. split; [reflexivity|]. split.
  - vm_compute in Hv. injection Hv as <-. discriminate.
  - apply (from_page_basic_is_erased_from_page Sample.post_fr Sample.library v Hv).
Defined.

(** ** Basic section projection (C10)

    C10: [from_section_basic] yields a view with no pages, with or without a
    library; with a library, ancestors, translations, subsections and
    includers are resolved, without one they are empty. *)
Theorem from_section_basic_no_pages s (library : option Library.t) v :
  from_section_basic s library = Some v →
  SerializingSection.pages v = [] ∧
  match library with
  | Some lib =>
      Some (SerializingSection.ancestors v) =
        mapM (λ k, q ← Library.get_section_by_key lib k;
                   Some (FileInfo.relative (Section.file q))) (Section.ancestors s) ∧
      Some (SerializingSection.translations v) = find_all_sections s lib ∧
      Some (SerializingSection.subsections v) =
        mapM (Library.get_section_path_by_key lib) (Section.subsections s) ∧
      Some (SerializingSection.includers v) =
        mapM (Library.get_section_path_by_key lib) (Section.includers s)
  | None =>
      SerializingSection.ancestors v = [] ∧ SerializingSection.translations v = [] ∧
      SerializingSection.subsections v = [] ∧ SerializingSection.includers v = []
  end.
Proof.
  unfold from_section_basic. intros H.
  destruct library as [lib|]; simpl in H.
  - destruct (mapM _ (Section.ancestors s)) as [a|] eqn:Ea; simpl in H; [|discriminate H].
    destruct (find_all_sections s lib) as [t|]; simpl in H; [|discriminate H].
    destruct (mapM _ (Section.subsections s)) as [ss|]; simpl in H; [|discriminate H].
    destruct (mapM _ (Section.includers s)) as [is|]; simpl in H; [|discriminate H].
    injection H as <-. simpl. auto.
  - injection H as <-. simpl. auto.
Qed.

Lemma from_section_basic_no_pages_witness :
  Section.pages Sample.blog_2024 = [0; 1] ∧
  ∃ v, from_section_basic Sample.blog_2024 (Some Sample.library) = Some v ∧
       SerializingSection.pages v = [].
Proof.
  split; [reflexivity|].
  destruct (from_section_basic Sample.blog_2024 (Some Sample.library)) as [v|] eqn:Hv;
    [|vm_compute in Hv; discriminate Hv].
  exists v. split; [reflexivity|].
  apply (from_section_basic_no_pages Sample.blog_2024 (Some Sample.library) v Hv).
Defined.

(** * Further properties of the projections *)

Lemma ancestors_Forall2 lib (l : list DefaultKey) (r : list string) :
  mapM (λ k, s ← Library.get_section_by_key lib k;
             Some (FileInfo.relative (Section.file s))) l = Some r →
  Forall2 (ancestor_resolved lib) l r.
Proof.
  intros H. apply mapM_Some in H. eapply Forall2_impl; [exact H|].
  intros k a Ha. unfold Library.get_section_by_key in Ha.
  unfold ancestor_resolved.
  destruct (Library.sections lib !! k) as [sec|]; simpl in Ha; [|discriminate].
  injection Ha as <-. eauto.
Qed.

Lemma from_page_basic_lib_shape p lib v :
  from_page_basic p (Some lib) = Some v →
  mapM (λ k, s ← Library.get_section_by_key lib k;
             Some (FileInfo.relative (Section.file s))) (Page.ancestors p)
    = Some (SerializingPage.ancestors v) ∧
  find_all_pages p lib = Some (SerializingPage.translations v) ∧
  from_page_basic p None = Some (drop_references v).
Proof.
  unfold from_page_basic. intros H.
  destruct (PageFrontMatter.datetime_tuple (Page.meta p)) as [[[y m] d]|];
  simpl in H |- *; bind_some H; injection H as <-; auto.
Qed.

Lemma from_page_basic_copies p lo v :
  from_page_basic p lo = Some v → page_fields_copied p v.
Proof.
  unfold from_page_basic. intros H.
  destruct (PageFrontMatter.datetime_tuple (Page.meta p)) as [[[y m] d]|];
  simpl in H; bind_some H; injection H as <-; repeat split.
Qed.

Lemma from_section_shape s lib v :
  from_section s lib = Some v →
  mapM (λ k, p ← Library.get_page_by_key lib k; to_serialized_basic p lib) (Section.pages s)
    = Some (SerializingSection.pages v) ∧
  mapM (λ k, q ← Library.get_section_by_key lib k;
             Some (FileInfo.relative (Section.file q))) (Section.ancestors s)
    = Some (SerializingSection.ancestors v) ∧
  find_all_sections s lib = Some (SerializingSection.translations v) ∧
  from_section_basic s (Some lib) = Some (clear_pages v) ∧
  section_fields_copied s v.
Proof.
  unfold from_section. intros H. bind_some H. injection H as <-. simpl.
  split_and!; try done.
  unfold from_section_basic. simpl. rewrite E2, E3, E0, E1. reflexivity.
Qed.

(** X1: without a library, [from_page_basic] never faults, and the view's
    ancestors and translations are empty. *)
Theorem from_page_basic_without_library p :
  ∃ v, from_page_basic p None = Some v ∧
       SerializingPage.ancestors v = [] ∧ SerializingPage.translations v = [].
Proof.
  unfold from_page_basic.
  destruct (PageFrontMatter.datetime_tuple (Page.meta p)) as [[[y m] d]|];
  simpl; eexists; split_and!; reflexivity.
Qed.

(** X2: without a library, [from_section_basic] never faults, and the
    view's pages, ancestors, translations, subsections and includers are
    all empty. *)
Theorem from_section_basic_without_library s :
  ∃ v, from_section_basic s None = Some v ∧
       SerializingSection.pages v = [] ∧ SerializingSection.ancestors v = [] ∧
       SerializingSection.translations v = [] ∧ SerializingSection.subsections v = [] ∧
       SerializingSection.includers v = [].
Proof. eexists. split_and!; reflexivity. Qed.

(** X3: the pages of a [from_section] view are, in the section's order and
    one for one, the basic projections (with the library) of the pages
    stored at the section's page keys. *)
Theorem from_section_child_pages s lib v :
  from_section s lib = Some v →
  Forall2 (λ k pv, ∃ q, Library.pages lib !! k = Some q ∧
                        from_page_basic q (Some lib) = Some pv)
    (Section.pages s) (SerializingSection.pages v).
Proof.
  intros H. destruct (from_section_shape s lib v H) as [Hp _].
  apply mapM_Some in Hp. eapply Forall2_impl; [exact Hp|].
  intros k pv Hk. unfold Library.get_page_by_key, to_serialized_basic in Hk.
  destruct (Library.pages lib !! k) as [q|]; simpl in Hk; [|discriminate]. eauto.
Qed.

Lemma from_section_child_pages_witness :
  ∃ v, from_section Sample.blog_2024 Sample.library = Some v ∧
       length (SerializingSection.pages v) = 2 ∧
       Forall2 (λ k pv, ∃ q, Library.pages Sample.library !! k = Some q ∧
                             from_page_basic q (Some Sample.library) = Some pv)
         (Section.pages Sample.blog_2024) (SerializingSection.pages v).
Proof.
  destruct (from_section Sample.blog_2024 Sample.library) as [v|] eqn:Hv;
    [|vm_compute in Hv; discriminate Hv].
  exists v. split; [reflexivity|]. split.
  - vm_compute in Hv. injection Hv as <-. reflexivity.
  - apply (from_section_child_pages Sample.blog_2024 Sample.library v Hv).
Defined.

(** X4: when [from_section] yields a view, [from_section_basic] with the
    same library yields that view with its pages emptied. *)
Theorem from_section_basic_is_cleared_from_section s lib v :
  from_section s lib = Some v → from_section_basic s (Some lib) = Some (clear_pages v).
Proof. intros H. apply (from_section_shape s lib v H). Qed.

Lemma from_section_basic_is_cleared_from_section_witness :
  ∃ v, from_section Sample.blog_2024 Sample.library = Some v ∧
       from_section_basic Sample.blog_2024 (Some Sample.library) = Some (clear_pages v).
Proof.
  destruct (from_section Sample.blog_2024 Sample.library) as [v|] eqn:Hv;
    [|vm_compute in Hv; discriminate Hv].
  exists v. split; [reflexivity|].
  apply (from_section_basic_is_cleared_from_section _ _ v Hv).
Defined.

(** X5: ancestors keep the entity's order: the i-th ancestor of a
    [from_page] or [from_section] view is the relative path of the section
    at the entity's i-th ancestor key. *)
Theorem ancestors_resolved_in_order :
  (∀ p lib v, from_page p lib = Some v →
     Forall2 (ancestor_resolved lib) (Page.ancestors p) (SerializingPage.ancestors v)) ∧
  (∀ s lib v, from_section s lib = Some v →
     Forall2 (ancestor_resolved lib) (Section.ancestors s) (SerializingSection.ancestors v)).
Proof.
  split.
  - intros p lib v H. destruct (from_page_shape p lib v H) as [Hb _].
    apply from_page_basic_lib_shape in Hb as [Ha _]. apply ancestors_Forall2, Ha.
  - intros s lib v H. destruct (from_section_shape s lib v H) as (_ & Ha & _).
    apply ancestors_Forall2, Ha.
Qed.

Lemma ancestors_resolved_in_order_witness :
  ∃ v, from_page Sample.post_en Sample.library = Some v ∧
       SerializingPage.ancestors v = ["blog"; "blog/2024"] ∧
       Forall2 (ancestor_resolved Sample.library) (Page.ancestors Sample.post_en)
         (SerializingPage.ancestors v).
Proof.
  destruct (from_page Sample.post_en Sample.library) as [v|] eqn:Hv;
    [|vm_compute in Hv; discriminate Hv].
  exists v. split; [reflexivity|]. split.
  - vm_compute in Hv. injection Hv as <-. reflexivity.
  - apply (proj1 ancestors_resolved_in_order _ _ v Hv).
Defined.

(** X6: the translations of a [from_page] (resp. [from_section]) view are
    exactly what [find_all_pages] (resp. [find_all_sections]) returns. *)
Theorem view_translations_from_resolver :
  (∀ p lib v, from_page p lib = Some v →
     find_all_pages p lib = Some (SerializingPage.translations v)) ∧
  (∀ s lib v, from_section s lib = Some v →
     find_all_sections s lib = Some (SerializingSection.translations v)).
Proof.
  split.
  - intros p lib v H. destruct (from_page_shape p lib v H) as [Hb _].
    apply from_page_basic_lib_shape in Hb as [_ [Ht _]]. exact Ht.
  - intros s lib v H. apply (from_section_shape s lib v H).
Qed.

Lemma view_translations_from_resolver_witness :
  ∃ v, from_section Sample.blog Sample.library = Some v ∧
       find_all_sections Sample.blog Sample.library = Some (SerializingSection.translations v).
Proof.
  destruct (from_section Sample.blog Sample.library) as [v|] eqn:Hv;
    [|vm_compute in Hv; discriminate Hv].
  exists v. split; [reflexivity|]. apply (proj2 view_translations_from_resolver _ _ v Hv).
Defined.

(** X7: every page view, basic or full, copies the page's own fields
    (relative path, content, permalink, slug, title, which [get_title]
    returns, description, dates, taxonomies, extra, path, components,
    summary, toc, word count, reading time, assets, draft flag, language). *)
Theorem page_view_copies_fields p :
  (∀ (library : option Library.t) v, from_page_basic p library = Some v →
     page_fields_copied p v) ∧
  (∀ lib v, from_page p lib = Some v → page_fields_copied p v).
Proof.
  split.
  - apply from_page_basic_copies.
  - intros lib v H. destruct (from_page_shape p lib v H) as [Hb _].
    apply from_page_basic_copies in Hb. exact Hb.
Qed.

Lemma page_view_copies_fields_witness :
  ∃ v, from_page Sample.post_fr Sample.library = Some v ∧ page_fields_copied Sample.post_fr v.
Proof.
  destruct (from_page Sample.post_fr Sample.library) as [v|] eqn:Hv;
    [|vm_compute in Hv; discriminate Hv].
  exists v. split; [reflexivity|]. apply (proj2 (page_view_copies_fields Sample.post_fr) _ v Hv).
Defined.

(** X8: every section view, from [from_section] or [from_section_basic],
    copies the section's own fields. *)
Theorem section_view_copies_fields s :
  (∀ (library : option Library.t) v, from_section_basic s library = Some v →
     section_fields_copied s v) ∧
  (∀ lib v, from_section s lib = Some v → section_fields_copied s v).
Proof.
  split.
  - intros [lib|] v H; unfold from_section_basic in H; simpl in H.
    + destruct (mapM _ (Section.ancestors s)); simpl in H; [|discriminate H].
      destruct (find_all_sections s lib); simpl in H; [|discriminate H].
      destruct (mapM _ (Section.subsections s)); simpl in H; [|discriminate H].
      destruct (mapM _ (Section.includers s)); simpl in H; [|discriminate H].
      injection H as <-. repeat split.
    + injection H as <-. repeat split.
  - intros lib v H. apply (from_section_shape s lib v H).
Qed.

Lemma section_view_copies_fields_witness :
  ∃ v, from_section Sample.blog_2024 Sample.library = Some v ∧
       section_fields_copied Sample.blog_2024 v.
Proof.
  destruct (from_section Sample.blog_2024 Sample.library) as [v|] eqn:Hv;
    [|vm_compute in Hv; discriminate Hv].
  exists v. split; [reflexivity|].
  apply (proj2 (section_view_copies_fields Sample.blog_2024) _ v Hv).
Defined.

(** X9: the resolver reads nothing of the entity but its canonical path:
    two pages (or two sections) with the same canonical path get the same
    result, so all members of a group share one translation list. *)
Theorem translations_depend_on_canonical_only :
  (∀ (p1 p2 : Page.t) lib,
     FileInfo.canonical (Page.file p1) = FileInfo.canonical (Page.file p2) →
     find_all_pages p1 lib = find_all_pages p2 lib) ∧
  (∀ (s1 s2 : Section.t) lib,
     FileInfo.canonical (Section.file s1) = FileInfo.canonical (Section.file s2) →
     find_all_sections s1 lib = find_all_sections s2 lib).
Proof.
  split; intros a b lib Hc; unfold find_all_pages, find_all_sections; rewrite Hc; reflexivity.
Qed.

Lemma translations_depend_on_canonical_only_witness :
  find_all_pages Sample.post_en Sample.library = find_all_pages Sample.post_fr Sample.library.
Proof. apply (proj1 translations_depend_on_canonical_only); reflexivity. Defined.

(** X10: [from_page_basic] with a library differs from [from_page_basic]
    without one only by the resolved ancestors and translations; the latter
    is the former with both emptied. *)
Theorem from_page_basic_library_only_adds_references p lib v :
  from_page_basic p (Some lib) = Some v → from_page_basic p None = Some (drop_references v).
Proof. intros H. apply (from_page_basic_lib_shape p lib v H). Qed.

Lemma from_page_basic_library_only_adds_references_witness :
  ∃ v, from_page_basic Sample.post_en (Some Sample.library) = Some v ∧
       from_page_basic Sample.post_en None = Some (drop_references v).
Proof.
  destruct (from_page_basic Sample.post_en (Some Sample.library)) as [v|] eqn:Hv;
    [|vm_compute in Hv; discriminate Hv].
  exists v. split; [reflexivity|].
  apply (from_page_basic_library_only_adds_references _ _ v Hv).
Defined.

(** X11: [from_page_basic] with a library succeeds exactly when the page's
    ancestor keys are sections of the library and the members of its
    translation group are pages of the library; its sibling keys are never
    read. *)
Theorem from_page_basic_succeeds_iff p lib :
  is_Some (from_page_basic p (Some lib)) ↔ basic_keys_present lib p = true.
Proof. symmetry. apply from_page_basic_resolved. Qed.

(** X12: [from_section_basic] with a library succeeds exactly when the
    section's ancestors, translation group's members, subsections and
    includers are sections of the library; its page keys are never read. *)
Theorem from_section_basic_succeeds_iff s lib :
  is_Some (from_section_basic s (Some lib)) ↔ section_basic_refs_ok lib s = true.
Proof.
  unfold section_basic_refs_ok.
  rewrite !andb_true_iff, ancestors_resolved, find_all_sections_resolved,
    (section_paths_resolved lib (Section.subsections s)),
    (section_paths_resolved lib (Section.includers s)).
  unfold from_section_basic. simpl.
  destruct (mapM _ (Section.ancestors s)); simpl; [|unfold is_Some; naive_solver].
  destruct (find_all_sections s lib); simpl; [|unfold is_Some; naive_solver].
  destruct (mapM _ (Section.subsections s)); simpl; [|unfold is_Some; naive_solver].
  destruct (mapM _ (Section.includers s)); simpl; unfold is_Some; naive_solver.
Qed.
